(** * Curseless: the profanity splicer of [main.py], embedded and verified

    The program transcribes an audio file, flags profane words, and replaces
    every flagged span of the audio with a replacement sound
    ([AudioContentModerator._replace_profanity]); it also writes a textual
    report ([AudioContentModerator.save_report]).

    Layout of this development:
    - [PyFloat]   Python floats (IEEE binary64) with [*], [<], [int], [round];
    - [Py]        list slicing, [round] of a quotient and [list.sort];
    - [Pydub]     the [AudioSegment] operations the program calls
                  (millisecond slicing, concatenation, fades);
    - [Main]      the methods of [AudioContentModerator], over a store of
                  mutable list objects;
    - [Design]    definitions that follow the design document's wording,
                  used only to compare it with the code;
    - theorems, one block per property. *)

From Stdlib Require Import ZArith QArith Qround Qabs Lia Ascii String Sorted.
From Stdlib Require Import SpecFloat.
From stdpp Require Import base option list gmap strings.

Local Open Scope Z_scope.

(** ** Python exceptions and results *)

Inductive exn :=
| ValueError            (* int(nan) *)
| OverflowError         (* int(inf) *)
| TypeError
| ZeroDivisionError
| TooManyMissingFrames  (* pydub.exceptions *)
| InvalidDuration.      (* pydub.exceptions *)

Inductive res (A : Type) :=
| Ok (a : A)
| Raise (e : exn).
Arguments Ok {A} a.
Arguments Raise {A} e.

#[global] Instance res_ret : MRet res := fun A a => Ok a.
#[global] Instance res_bind : MBind res := fun A B k r =>
  match r with
  | Ok a => k a
  | Raise e => Raise e
  end.

(** ** Python floats *)

Module PyFloat.

Definition prec : Z := 53.
Definition emax : Z := 1024.

(** A Python [float] is an IEEE 754 binary64 number. *)
Definition float := spec_float.

(** The float nearest to [m * 2^e] and the float of an [int]. *)
Definition dyadic (m e : Z) : float := binary_normalize prec emax m e false.
Definition of_int (z : Z) : float := dyadic z 0.

(** [x * y], rounded to nearest, ties to even. *)
Definition mul (x y : float) : float := SFmul prec emax x y.

(** [x < y]; false as soon as one side is a NaN. *)
Definition ltb (x y : float) : bool := SFltb x y.
Definition leb (x y : float) : bool := SFleb x y.

Definition is_nan (x : float) : bool :=
  match x with S754_nan => true | _ => false end.


(** [int(x)]: the integer part, by shifting the mantissa; NaN and the
    infinities raise. *)
Definition int (x : float) : res Z :=
  match x with
  | S754_nan => Raise ValueError
  | S754_infinity _ => Raise OverflowError
  | S754_zero _ => Ok 0
  | S754_finite s m e => Ok (cond_Zopp s (Z.shiftl (Zpos m) e))
  end.

(** The exact rational value of a finite float (0 for the others). *)
Definition to_Q (x : float) : Q :=
  match x with
  | S754_finite s m e =>
      match e with
      | Zneg p => Qmake (cond_Zopp s (Zpos m)) (2 ^ p)%positive
      | _ => inject_Z (cond_Zopp s (Zpos m * 2 ^ e))
      end
  | _ => 0%Q
  end.

(** [round(x)]: the nearest integer to the exact value, a tie going to
    the even one. *)
Definition round_Q (q : Q) : Z :=
  let f := Qfloor q in
  match Qcompare (q - inject_Z f) (1 # 2) with
  | Lt => f
  | Eq => if Z.even f then f else f + 1
  | Gt => f + 1
  end.

Definition round (x : float) : res Z :=
  match x with
  | S754_nan => Raise ValueError
  | S754_infinity _ => Raise OverflowError
  | _ => Ok (round_Q (to_Q x))
  end.

(** Truncation of a rational toward zero. *)
Definition trunc_Q (q : Q) : Z := Z.quot (Qnum q) (Zpos (Qden q)).

(** The float written [m / 10^k] in decimal, for [|m|] and [10^k] below
    [2^53]: the correctly rounded quotient of two exact floats. *)
Definition decimal (m : Z) (k : nat) : float :=
  SFdiv prec emax (of_int m) (of_int (10 ^ Z.of_nat k)).

(** The position of a float that is not a NaN in the order [<] tests:
    class first (-inf, negative, zero, positive, +inf), then exponent,
    then mantissa. *)
Definition rank (x : float) : Z * (Z * Z) :=
  match x with
  | S754_nan => (0, (0, 0))
  | S754_zero _ => (0, (0, 0))
  | S754_infinity s => (if s then -2 else 2, (0, 0))
  | S754_finite false m e => (1, (e, Zpos m))
  | S754_finite true m e => (-1, (- e, Zneg m))
  end.

Definition lex_compare (a b : Z * (Z * Z)) : comparison :=
  match fst a ?= fst b with
  | Eq => match fst (snd a) ?= fst (snd b) with
          | Eq => snd (snd a) ?= snd (snd b)
          | c => c
          end
  | c => c
  end.

End PyFloat.

Declare Scope pyfloat_scope.
Delimit Scope pyfloat_scope with pyfloat.
Infix "*" := PyFloat.mul : pyfloat_scope.

(** ** Python lists and integers *)

Module Py.

(** A slice bound [i] of a sequence of length [n]: negative bounds count
    from the end, and every bound is clipped to [0..n]. *)
Definition slice_index (n i : Z) : Z :=
  if i <? 0 then Z.max (i + n) 0 else Z.min i n.

(** [l[a:b]] *)
Definition slice {A} (l : list A) (a b : Z) : list A :=
  let n := Z.of_nat (length l) in
  let a' := slice_index n a in
  let b' := slice_index n b in
  take (Z.to_nat (b' - a')) (drop (Z.to_nat a') l).

(** [l * k]; empty when [k <= 0]. *)
Definition times {A} (l : list A) (k : Z) : list A :=
  mjoin (replicate (Z.to_nat k) l).

(** [round(n / d)] for [d > 0], over the exact quotient: the nearest
    integer, a tie going to the even one. *)
Definition round_div (n d : Z) : Z :=
  let q := n / d in
  match 2 * (n mod d) ?= d with
  | Lt => q
  | Eq => if Z.even q then q else q + 1
  | Gt => q + 1
  end.

(** [round(q)] on an exact rational. *)
Definition round_Q (q : Q) : Z := round_div (Qnum q) (Zpos (Qden q)).

(** [sum(l)] and [min(a, b)] on integers. *)
Definition sum (l : list Z) : Z := foldr Z.add 0 l.

(** [list.sort(key=key)]: a stable sort that compares keys with [<] only.
    For keys that [<] orders totally (floats without NaN) every stable
    sort returns this list. *)
Section Sort.
Context {A K : Type} (key : A -> K) (lt : K -> K -> bool).

Fixpoint insert (x : A) (l : list A) : list A :=
  match l with
  | [] => [x]
  | y :: l' => if lt (key y) (key x) then y :: insert x l' else x :: y :: l'
  end.

Definition sort (l : list A) : list A := foldr insert [] l.
End Sort.

End Py.

(** ** pydub's [AudioSegment]

    pydub is a dependency of the program.  The operations below are the ones
    [main.py] calls, written after [pydub/audio_segment.py]; three things are
    idealised: every segment has the same sample format (so [+] converts
    nothing), the frame rate is a whole number of frames per millisecond, and
    gains and frame counts are exact rationals instead of doubles. *)

Class SampleFormat (frame : Type) := {
  (** [frame_rate / 1000] *)
  frames_per_ms : Z;
  frames_per_ms_pos : 0 < frames_per_ms;
  (** [audioop.mul] on one frame: every sample scaled by the factor *)
  audioop_mul : Q -> frame -> frame
}.

Module Pydub.
Section Pydub.
Context {frame : Type} `{SampleFormat frame}.

(** [_data] holds the frames; a frame is one sample per channel. *)
Record AudioSegment := _spawn { _data : list frame }.

(** [audioop.mul(fragment, sample_width, factor)] *)
Definition mul (fragment : list frame) (factor : Q) : list frame :=
  map (audioop_mul factor) fragment.

(** [frame_count(ms)] with [ms] given, and with [ms=None] *)
Definition frame_count_ms (ms : Z) : Z := ms * frames_per_ms.
Definition frame_count (seg : AudioSegment) : Z := Z.of_nat (length (_data seg)).

(** [len(seg)], in milliseconds:
    [round(1000 * (self.frame_count() / self.frame_rate))] *)
Definition len (seg : AudioSegment) : Z :=
  Py.round_div (frame_count seg) frames_per_ms.

Definition _parse_position (seg : AudioSegment) (val : Z) : Z :=
  let val := if val <? 0 then len seg - Z.abs val else val in
  frame_count_ms val.

(** The body of [__getitem__] after [start] and [end] are fixed. *)
Definition getitem_range (seg : AudioSegment) (start end_ : Z) : res AudioSegment :=
  let start := _parse_position seg start in
  let end_ := _parse_position seg end_ in
  let data := Py.slice (_data seg) start end_ in
  let expected_length := end_ - start in
  let missing_frames := expected_length - Z.of_nat (length data) in
  if missing_frames =? 0 then Ok (_spawn data)
  else if frame_count_ms 2 <? missing_frames then Raise TooManyMissingFrames
  else
    let silence := mul (Py.slice data 0 1) 0 in
    Ok (_spawn (data ++ Py.times silence missing_frames)).

(** [seg[start:stop]]; [None] is an omitted bound. *)
Definition getitem_slice (seg : AudioSegment) (start stop : option Z) : res AudioSegment :=
  let start := default 0 start in
  let end_ := default (len seg) stop in
  let start := Z.min start (len seg) in
  let end_ := Z.min end_ (len seg) in
  getitem_range seg start end_.

(** [seg[millisecond]] *)
Definition getitem_ms (seg : AudioSegment) (millisecond : Z) : res AudioSegment :=
  getitem_range seg millisecond (millisecond + 1).

Definition get_frame (seg : AudioSegment) (index : Z) : list frame :=
  Py.slice (_data seg) index (index + 1).

(** [seg1 + seg2], that is [seg1.append(seg2, crossfade=0)] *)
Definition add (seg1 seg2 : AudioSegment) : AudioSegment :=
  _spawn (_data seg1 ++ _data seg2).

(** [db_to_float(db)] is [10 ** (db / 20)]; exact when [db] is a multiple
    of 20, as it is at every call below (0 and -120). *)
Definition db_to_float (db : Z) : Q := Qpower 10 (db / 20).

(** A position argument of [fade]: milliseconds or [float('inf')]. *)
Inductive position := Ms (ms : Z) | Inf.

Definition min_len (n : Z) (p : position) : Z :=
  match p with Ms ms => Z.min n ms | Inf => n end.

(** The [start] and [end] that [fade] settles on before it touches the
    data, for a call that passes [duration] and one of [start], [end]. *)
Definition fade_window (seg : AudioSegment) (start end_ : option position)
    (duration : Z) : res (Z * Z) :=
  let wrap p := let p := min_len (len seg) p in if p <? 0 then p + len seg else p in
  let start := wrap <$> start in
  let end_ := wrap <$> end_ in
  if duration <? 0 then Raise InvalidDuration
  else if duration =? 0 then Raise TypeError
  else match start, end_ with
       | Some s, _ => Ok (s, s + duration)
       | None, Some e => Ok (e - duration, e)
       | None, None =>
           if 100 <? duration then Raise TypeError else Raise ZeroDivisionError
       end.

(** The gain steps of the precise branch (one step per frame):
    frames [start_frame .. start_frame + fade_frames). *)
Definition fade_precise (seg : AudioSegment) (from_power gain_delta : Q)
    (start_frame fade_frames : Z) : list frame :=
  let scale_step := (gain_delta / inject_Z fade_frames)%Q in
  mjoin ((fun i : nat =>
            let volume_change := (from_power + scale_step * inject_Z (Z.of_nat i))%Q in
            mul (get_frame seg (start_frame + Z.of_nat i)) volume_change)
         <$> seq 0 (Z.to_nat fade_frames)).

(** The gain steps of the coarse branch (one step per millisecond). *)
Fixpoint fade_coarse (seg : AudioSegment) (from_power scale_step : Q)
    (start : Z) (i : Z) (n : nat) : res (list frame) :=
  match n with
  | O => Ok []
  | S n' =>
      let volume_change := (from_power + scale_step * inject_Z i)%Q in
      chunk ← getitem_ms seg (start + i);
      rest ← fade_coarse seg from_power scale_step start (i + 1) n';
      Ok (mul (_data chunk) volume_change ++ rest)
  end.

(** [fade] once [start] and [end] are settled: the data before the
    window, the window under the changing gain, the data after it. *)
Definition fade_between (seg : AudioSegment) (to_gain from_gain : Z)
    (start end_ : Z) (duration : Z) : res AudioSegment :=
  let from_power := db_to_float from_gain in
  before_fade ← getitem_slice seg None (Some start);
  let before_fade :=
    if from_gain =? 0 then _data before_fade
    else mul (_data before_fade) from_power in
  let gain_delta := (db_to_float to_gain - from_power)%Q in
  faded ←
    (if 100 <? duration then
       fade_coarse seg from_power (gain_delta / inject_Z duration)%Q
         start 0 (Z.to_nat duration)
     else
       let start_frame := frame_count_ms start in
       let end_frame := frame_count_ms end_ in
       Ok (fade_precise seg from_power gain_delta start_frame
             (end_frame - start_frame)));
  after_fade ← getitem_slice seg (Some end_) None;
  let after_fade :=
    if to_gain =? 0 then _data after_fade
    else mul (_data after_fade) (db_to_float to_gain) in
  Ok (_spawn (before_fade ++ faded ++ after_fade)).

Definition fade (seg : AudioSegment) (to_gain from_gain : Z)
    (start end_ : option position) (duration : Z) : res AudioSegment :=
  match start, end_ with
  | Some _, Some _ => Raise TypeError
  | _, _ =>
    if (to_gain =? 0) && (from_gain =? 0) then Ok seg
    else
      '(start, end_) ← fade_window seg start end_ duration;
      fade_between seg to_gain from_gain start end_ duration
  end.

Definition fade_out (seg : AudioSegment) (duration : Z) : res AudioSegment :=
  fade seg (-120) 0 None (Some Inf) duration.

Definition fade_in (seg : AudioSegment) (duration : Z) : res AudioSegment :=
  fade seg 0 (-120) (Some (Ms 0)) None duration.

End Pydub.
Arguments AudioSegment frame : clear implicits.
End Pydub.

(** ** Strings as [main.py] builds them *)

Module Str.
Local Open Scope string_scope.

Definition nl : string := String (ascii_of_nat 10) "".

(** [s * n] *)
Fixpoint times (s : string) (n : nat) : string :=
  match n with O => "" | S n' => s ++ times s n' end.

(** ASCII white space, as [str.strip] sees it. *)
Definition is_space (c : ascii) : bool :=
  let n := nat_of_ascii c in
  ((9 <=? n) && (n <=? 13) || (28 <=? n) && (n <=? 32))%nat.

Fixpoint lstrip (s : string) : string :=
  match s with
  | String c s' => if is_space c then lstrip s' else s
  | "" => ""
  end.

Fixpoint rstrip (s : string) : string :=
  match s with
  | String c s' =>
      match rstrip s' with
      | "" => if is_space c then "" else String c ""
      | r => String c r
      end
  | "" => ""
  end.

(** [s.strip()] and [s.lower()], on ASCII text. *)
Definition strip (s : string) : string := rstrip (lstrip s).

Definition lower_ascii (c : ascii) : ascii :=
  let n := nat_of_ascii c in
  if ((65 <=? n) && (n <=? 90))%nat then ascii_of_nat (n + 32) else c.

Fixpoint lower (s : string) : string :=
  match s with
  | String c s' => String (lower_ascii c) (lower s')
  | "" => ""
  end.

(** [str(n)] for a natural number. *)
Definition digit (d : Z) : string := String (ascii_of_nat (48 + Z.to_nat d)) "".

Fixpoint of_pos_fuel (fuel : nat) (n : Z) (acc : string) : string :=
  match fuel with
  | O => acc
  | S fuel' =>
      let acc := digit (n mod 10)%Z ++ acc in
      if (n <? 10)%Z then acc else of_pos_fuel fuel' (n / 10)%Z acc
  end.

Definition of_nat (n : nat) : string :=
  of_pos_fuel (S n) (Z.of_nat n) "".
Definition of_Z_nonneg (n : Z) : string :=
  of_pos_fuel (S (Z.to_nat (Z.log2 n))) n "".

(** [f"{x:.2f}"]: two decimals, correctly rounded from the exact value
    of the double, a tie going to the even digit. *)
Definition format_2f (x : PyFloat.float) : string :=
  let body (q : Q) :=
    let r := Py.round_Q (Qabs q * 100)%Q in
    of_Z_nonneg (r / 100)%Z ++ "." ++ digit (r mod 100 / 10)%Z ++ digit (r mod 10)%Z in
  match x with
  | S754_nan => "nan"
  | S754_infinity s => if s then "-inf" else "inf"
  | S754_zero s => if s then "-0.00" else "0.00"
  | S754_finite s _ _ => (if s then "-" else "") ++ body (PyFloat.to_Q x)
  end.

End Str.

(** ** The program: [main.py] *)

(** The dicts of [main.py], with their keys as fields. *)

(** One entry of a Whisper segment's ["words"]. *)
Record WordInfo := {
  wi_word : string;
  wi_start : PyFloat.float;
  wi_end : PyFloat.float
}.

(** One element of [result["segments"]]; ["words"] may be absent. *)
Record WhisperSegment := { words : option (list WordInfo) }.

(** What [_transcribe_audio] appends to [segments]. *)
Record TextSegment := {
  seg_word : string;
  seg_start_time : PyFloat.float;
  seg_end_time : PyFloat.float
}.

(** What [_detect_profanity] appends to [profanity_instances]. *)
Record ProfanityInstance := {
  word : string;
  start_time : PyFloat.float;
  end_time : PyFloat.float;
  censored_text : string
}.

(** The [better_profanity] word list, loaded by [load_censor_words]. *)
Class Lexicon := {
  contains_profanity : string -> bool;
  censor : string -> string
}.

(** Python's store: the list objects that hold profanity instances, by
    identity, and the text files written so far. *)
Definition loc := positive.

Record state := {
  heap : gmap loc (list ProfanityInstance);
  files : gmap string string
}.

Module Main.
Section Main.
Context {frame : Type} `{SampleFormat frame} `{Lexicon}.
#[local] Abbreviation AudioSegment := (Pydub.AudioSegment frame).

(** Computations that read and write the store and may raise; the store
    outlives an exception. *)
Definition M (A : Type) : Type := state -> res A * state.

#[global] Instance M_ret : MRet M := fun A a σ => (Ok a, σ).
#[global] Instance M_bind : MBind M := fun A B k m σ =>
  match m σ with
  | (Ok a, σ') => k a σ'
  | (Raise e, σ') => (Raise e, σ')
  end.

Definition lift {A} (r : res A) : M A := fun σ => (r, σ).

(** [[]]: a new list object. *)
Definition new_list : M loc := fun σ =>
  let l := fresh (dom (heap σ)) in
  (Ok l, {| heap := <[l := []]> (heap σ); files := files σ |}).

(** The elements of the list object [l], as [for x in l], [len(l)] and
    [not l] read them.  Every reference a method is given names an object. *)
Definition elements_of (l : loc) : M (list ProfanityInstance) := fun σ =>
  (Ok (default [] (heap σ !! l)), σ).

(** [l.append(x)] *)
Definition list_append (l : loc) (x : ProfanityInstance) : M unit := fun σ =>
  (Ok tt, {| heap := alter (fun xs => xs ++ [x]) l (heap σ); files := files σ |}).

(** [l.sort(key=lambda x: x['start_time'])]: the object is reordered in
    place. *)
Definition list_sort_by_start_time (l : loc) : M unit := fun σ =>
  (Ok tt, {| heap := alter (Py.sort start_time PyFloat.ltb) l (heap σ);
             files := files σ |}).

(** [open(path, 'w')] and [f.write(s)] *)
Definition open_w (path : string) : M unit := fun σ =>
  (Ok tt, {| heap := heap σ; files := <[path := ""%string]> (files σ) |}).
Definition write (path : string) (s : string) : M unit := fun σ =>
  (Ok tt, {| heap := heap σ;
             files := alter (fun old => (old ++ s)%string) path (files σ) |}).

(** [for x in xs: body(x)] *)
Fixpoint for_ {A} (xs : list A) (body : A -> M unit) : M unit :=
  match xs with
  | [] => mret tt
  | x :: xs' => body x ;; for_ xs' body
  end.

(** [self]: the fields the methods read.  [model] is the loaded Whisper
    model's [transcribe(path, word_timestamps=True, language="en")],
    reduced to [result["segments"]]. *)
Record AudioContentModerator := {
  model : string -> list WhisperSegment;
  replacement_sound : AudioSegment;
  censorship_threshold : PyFloat.float
}.

Definition _transcribe_audio (self : AudioContentModerator) (audio_path : string)
    : list TextSegment :=
  let result := model self audio_path in
  mjoin ((fun segment =>
            match words segment with
            | Some ws =>
                (fun word_info =>
                   {| seg_word := Str.lower (Str.strip (wi_word word_info));
                      seg_start_time := wi_start word_info;
                      seg_end_time := wi_end word_info |}) <$> ws
            | None => []
            end) <$> result).

Definition _detect_profanity (text_segments : list TextSegment) : M loc :=
  profanity_instances ← new_list;
  for_ text_segments (fun segment =>
    let word := seg_word segment in
    if contains_profanity word then
      list_append profanity_instances
        {| word := word;
           start_time := seg_start_time segment;
           end_time := seg_end_time segment;
           censored_text := censor word |}
    else mret tt) ;;
  mret profanity_instances.

(** [int(instance['start_time'] * 1000)] and the same for ['end_time']. *)
Definition to_ms (t : PyFloat.float) : res Z :=
  PyFloat.int (t * PyFloat.of_int 1000)%pyfloat.

(** The two statements that build [adjusted_replacement]:
    [self.replacement_sound[:duration]], then [.fade_in(20).fade_out(20)]. *)
Definition adjust_replacement (self : AudioContentModerator) (duration : Z)
    : res AudioSegment :=
  adjusted_replacement ← Pydub.getitem_slice (replacement_sound self) None (Some duration);
  adjusted_replacement ← Pydub.fade_in adjusted_replacement 20;
  Pydub.fade_out adjusted_replacement 20.

(** The body of the [for] loop of [_replace_profanity]. *)
Definition replace_instance (self : AudioContentModerator)
    (audio : AudioSegment) (instance : ProfanityInstance) : res AudioSegment :=
  start_ms ← to_ms (start_time instance);
  end_ms ← to_ms (end_time instance);
  let duration := end_ms - start_ms in
  adjusted_replacement ← adjust_replacement self duration;
  before ← Pydub.getitem_slice audio None (Some start_ms);
  after ← Pydub.getitem_slice audio (Some end_ms) None;
  mret (Pydub.add (Pydub.add before adjusted_replacement) after).

Fixpoint replace_loop (self : AudioContentModerator) (audio : AudioSegment)
    (instances : list ProfanityInstance) : res AudioSegment :=
  match instances with
  | [] => Ok audio
  | instance :: rest =>
      audio ← replace_instance self audio instance;
      replace_loop self audio rest
  end.

Definition _replace_profanity (self : AudioContentModerator)
    (audio : AudioSegment) (profanity_instances : loc) : M AudioSegment :=
  list_sort_by_start_time profanity_instances ;;
  instances ← elements_of profanity_instances;
  lift (replace_loop self audio instances).

(** [process_audio], given what [AudioSegment.from_file(input_audio_path)]
    returned. *)
Definition process_audio (self : AudioContentModerator)
    (from_file : string -> res AudioSegment) (input_audio_path : string)
    : M (AudioSegment * loc) :=
  audio ← lift (from_file input_audio_path);
  let text_segments := _transcribe_audio self input_audio_path in
  profanity_instances ← _detect_profanity text_segments;
  processed_audio ← _replace_profanity self audio profanity_instances;
  mret (processed_audio, profanity_instances).

Local Open Scope string_scope.

Definition report_instance (output_path : string) (idx : nat)
    (instance : ProfanityInstance) : M unit :=
  write output_path ("Instance " ++ Str.of_nat idx ++ ":" ++ Str.nl) ;;
  write output_path ("Word: " ++ word instance ++ Str.nl) ;;
  write output_path ("Censored Version: " ++ censored_text instance ++ Str.nl) ;;
  write output_path ("Timestamp: " ++ Str.format_2f (start_time instance) ++ "s - "
                       ++ Str.format_2f (end_time instance) ++ "s" ++ Str.nl) ;;
  write output_path (Str.times "-" 20 ++ Str.nl).

(** [for idx, instance in enumerate(instances, idx): ...] *)
Fixpoint report_instances (output_path : string) (idx : nat)
    (instances : list ProfanityInstance) : M unit :=
  match instances with
  | [] => mret tt
  | instance :: rest =>
      report_instance output_path idx instance ;;
      report_instances output_path (S idx) rest
  end.

Definition save_report (profanity_instances : loc) (output_path : string) : M unit :=
  open_w output_path ;;
  write output_path ("Audio Content Moderation Report" ++ Str.nl) ;;
  write output_path (Str.times "=" 30 ++ Str.nl ++ Str.nl) ;;
  instances ← elements_of profanity_instances;
  match instances with
  | [] => write output_path ("No profanity detected in the audio." ++ Str.nl)
  | _ =>
      write output_path ("Total instances found: " ++ Str.of_nat (length instances)
                           ++ Str.nl ++ Str.nl) ;;
      report_instances output_path 1 instances
  end.

(** [__init__], given [whisper.load_model(model_size).to(device)] and
    [AudioSegment.from_file]: the model is loaded first, then the
    replacement sound.  The defaults of the two last arguments are 0.8 and
    "base". *)
Definition __init__ (load_model : string -> res (string -> list WhisperSegment))
    (from_file : string -> res AudioSegment)
    (replacement_sound_path : string) (censorship_threshold : PyFloat.float)
    (model_size : string) : res AudioContentModerator :=
  model ← load_model model_size;
  replacement_sound ← from_file replacement_sound_path;
  mret {| model := model;
          replacement_sound := replacement_sound;
          censorship_threshold := censorship_threshold |}.

(** [main].  [export] stands for [processed_audio.export(path, format=...)]:
    it writes an audio file, which the store does not hold, and may raise.
    The final [print] is left out. *)
Definition main (load_model : string -> res (string -> list WhisperSegment))
    (from_file : string -> res AudioSegment)
    (export : AudioSegment -> string -> string -> res unit) : M unit :=
  moderator ← lift (__init__ load_model from_file "beep.mp3" (PyFloat.decimal 8 1) "base");
  '(processed_audio, profanity_instances) ← process_audio moderator from_file "input.mp3";
  lift (export processed_audio "output.mp3" "mp3") ;;
  save_report profanity_instances "moderation_report.txt".

End Main.
End Main.

(** ** Concrete sample formats, for evaluating the program *)

(** Signed 16-bit mono PCM: a frame is one sample, and [audioop.mul]
    truncates the scaled sample into range and floors it. *)
Definition mul16 (factor : Q) (sample : Z) : Z :=
  let v := (inject_Z sample * factor)%Q in
  if Qle_bool 32767 v then 32767
  else if Qle_bool v (-32768) then -32768
  else Qfloor v.

(** 1 kHz and 8 kHz mono. *)
Definition mono16_1k : SampleFormat Z :=
  {| frames_per_ms := 1; frames_per_ms_pos := eq_refl; audioop_mul := mul16 |}.
Definition mono16_8k : SampleFormat Z :=
  {| frames_per_ms := 8; frames_per_ms_pos := eq_refl; audioop_mul := mul16 |}.

(** A format that records how often [audioop.mul] touched a frame: a frame
    of loaded audio carries 0. *)
Definition traced16 : SampleFormat (nat * Z) :=
  {| frames_per_ms := 1; frames_per_ms_pos := eq_refl;
     audioop_mul := fun factor f => (S (fst f), mul16 factor (snd f)) |}.

(** ** The design document's splicer

    These definitions follow the wording of the design document (its
    section on the interval splicer and its testable properties); nothing
    below is taken from [main.py].  They serve to compare the two. *)

Module Design.
Section Design.
Context {frame : Type} `{SampleFormat frame}.
#[local] Abbreviation AudioSegment := (Pydub.AudioSegment frame).

(** "[start_ms = round(start*1000)], [end_ms = round(end*1000)]" *)
Definition to_ms (t : PyFloat.float) : res Z :=
  PyFloat.round (t * PyFloat.of_int 1000)%pyfloat.




(** "original_duration - sum(original interval durations)
     + sum(actual replacement durations used)", the actual replacement
    duration being "min(interval_duration, replacement_clip_duration)". *)
Definition expected_duration (original_duration clip_duration : Z)
    (interval_durations : list Z) : Z :=
  original_duration - Py.sum interval_durations
  + Py.sum (Z.min clip_duration <$> interval_durations).

End Design.
End Design.

(** ** Example inputs *)

Module Ex.
Local Open Scope string_scope.

(** [n] frames with the sample values [a], [a+1], ... *)
Definition ramp (a : Z) (n : nat) : Pydub.AudioSegment Z :=
  Pydub._spawn ((fun i => a + Z.of_nat i) <$> seq 0 n).

(** [n] frames of the constant sample [v]. *)
Definition flat (v : Z) (n : nat) : Pydub.AudioSegment Z :=
  Pydub._spawn (replicate n v).

Definition moderator {frame} (clip : Pydub.AudioSegment frame)
    : Main.AudioContentModerator :=
  {| Main.model := fun _ => [];
     Main.replacement_sound := clip;
     Main.censorship_threshold := PyFloat.decimal 8 1 |}.

(** A flagged word from [a / 1000] to [b / 1000] seconds. *)
Definition flagged (a b : Z) : ProfanityInstance :=
  {| word := "damn"; start_time := PyFloat.decimal a 3;
     end_time := PyFloat.decimal b 3; censored_text := "****" |}.

(** A word list with two entries, and a transcription of three segments;
    the second one carries no word-level detail and the third one starts
    before the first. *)
Definition lexicon : Lexicon :=
  {| contains_profanity := fun w => bool_decide (w = "damn") || bool_decide (w = "hell");
     censor := fun w => Str.times "*" (String.length w) |}.

Definition whisper (path : string) : list WhisperSegment :=
  [ {| words := Some [ {| wi_word := " Damn"; wi_start := PyFloat.decimal 600 3;
                          wi_end := PyFloat.decimal 700 3 |};
                       {| wi_word := " it"; wi_start := PyFloat.decimal 700 3;
                          wi_end := PyFloat.decimal 800 3 |} ] |};
    {| words := None |};
    {| words := Some [ {| wi_word := " hell"; wi_start := PyFloat.decimal 200 3;
                          wi_end := PyFloat.decimal 300 3 |} ] |} ].

Definition empty_store : state := {| heap := ∅; files := ∅ |}.

(** A store whose object 1 is the list [instances]. *)
Definition store_with (instances : list ProfanityInstance) : state :=
  {| heap := {[ 1%positive := instances ]}; files := ∅ |}.

(** A moderator whose model is [whisper]. *)
Definition listening_moderator {frame} (clip : Pydub.AudioSegment frame)
    : Main.AudioContentModerator :=
  {| Main.model := whisper;
     Main.replacement_sound := clip;
     Main.censorship_threshold := PyFloat.decimal 8 1 |}.


End Ex.

(** ** Vocabulary of the statements *)

Section Vocabulary.
Context {frame : Type} `{SampleFormat frame}.

(** The segment holds exactly [k] milliseconds of frames. *)
Definition whole_ms (seg : Pydub.AudioSegment frame) (k : Z) : Prop :=
  0 <= k /\ Z.of_nat (length (Pydub._data seg)) = k * frames_per_ms.

(** A frame that [audioop.mul] produced. *)
Definition scaled (f : frame) : Prop := exists g x, f = audioop_mul g x.

(** The gain of the [i]-th frame of a fade-in, and of a fade-out, that
    lasts [duration] milliseconds: from [db_to_float(-120)] up to 1, and
    from 1 down. *)
Definition gain_in (duration : Z) (i : nat) : Q :=
  (Pydub.db_to_float (-120)
   + (Pydub.db_to_float 0 - Pydub.db_to_float (-120))
     / inject_Z (Pydub.frame_count_ms duration - Pydub.frame_count_ms 0)
     * inject_Z (Z.of_nat i))%Q.

Definition gain_out (duration : Z) (k : Z) (i : nat) : Q :=
  (Pydub.db_to_float 0
   + (Pydub.db_to_float (-120) - Pydub.db_to_float 0)
     / inject_Z (Pydub.frame_count_ms k - Pydub.frame_count_ms (k - duration))
     * inject_Z (Z.of_nat i))%Q.

(** The first [duration] milliseconds of [data] under the rising gain, the
    rest as it was. *)
Definition ramp_in (duration : Z) (data : list frame) : list frame :=
  let w := Z.to_nat (Pydub.frame_count_ms duration) in
  imap (fun i => audioop_mul (gain_in duration i)) (take w data) ++ drop w data.

(** The last [duration] milliseconds of [data] (which holds [k]
    milliseconds) under the falling gain, the rest as it was. *)
Definition ramp_out (duration k : Z) (data : list frame) : list frame :=
  let w := Z.to_nat (Pydub.frame_count_ms (k - duration)) in
  take w data ++ imap (fun i => audioop_mul (gain_out duration k i)) (drop w data).

End Vocabulary.

(** The millisecond bounds [_replace_profanity] computes for an instance. *)
Definition interval_ms (i : ProfanityInstance) (start_ms end_ms : Z) : Prop :=
  Main.to_ms (start_time i) = Ok start_ms /\ Main.to_ms (end_time i) = Ok end_ms.



(** Ascending by a float key, and the elements whose key equals [k] (as
    [==] on floats decides it), in their order. *)
Definition ascending {A} (key : A -> PyFloat.float) : list A -> Prop :=
  Sorted (fun a b => PyFloat.leb (key a) (key b) = true).

Definition with_key {A} (key : A -> PyFloat.float) (k : PyFloat.float) (l : list A)
    : list A :=
  filter (fun a => SFeqb (key a) k = true) l.


(** What the scanner flags, in transcription order. *)
Definition flagged_of `{Lexicon} (text_segments : list TextSegment)
    : list ProfanityInstance :=
  omap (fun segment =>
          let word := seg_word segment in
          if contains_profanity word then
            Some {| word := word;
                    start_time := seg_start_time segment;
                    end_time := seg_end_time segment;
                    censored_text := censor word |}
          else None) text_segments.


(** The two header lines of every report, and the test for a count line. *)
Definition report_header : string :=
  ("Audio Content Moderation Report" ++ Str.nl ++ Str.times "=" 30 ++ Str.nl ++ Str.nl)%string.

Definition has_count_line (report : string) : bool :=
  match String.index 0 "Total instances found" report with
  | Some _ => true
  | None => false
  end.

(** The text of a report, as one string: the block of the instance numbered
    [idx], the blocks of a list numbered from [idx] on, and the whole file. *)
Definition report_block (idx : nat) (i : ProfanityInstance) : string :=
  ("Instance " ++ Str.of_nat idx ++ ":" ++ Str.nl
   ++ "Word: " ++ word i ++ Str.nl
   ++ "Censored Version: " ++ censored_text i ++ Str.nl
   ++ "Timestamp: " ++ Str.format_2f (start_time i) ++ "s - "
   ++ Str.format_2f (end_time i) ++ "s" ++ Str.nl
   ++ Str.times "-" 20 ++ Str.nl)%string.

Fixpoint report_blocks (idx : nat) (instances : list ProfanityInstance) : string :=
  match instances with
  | [] => ""%string
  | i :: rest => (report_block idx i ++ report_blocks (S idx) rest)%string
  end.

Definition report_text (instances : list ProfanityInstance) : string :=
  (report_header
   ++ match instances with
      | [] => "No profanity detected in the audio." ++ Str.nl
      | _ => "Total instances found: " ++ Str.of_nat (length instances)
             ++ Str.nl ++ Str.nl ++ report_blocks 1 instances
      end)%string.




(** * Verification *)

(** ** Results *)

Lemma res_bind_Ok {A B} (r : res A) (k : A -> res B) (b : B) :
  r ≫= k = Ok b -> exists a, r = Ok a /\ k a = Ok b.
Proof. destruct r as [a|e]; simpl; [eauto | discriminate]. Qed.

Lemma bind_Ok {A B} (a : A) (k : A -> res B) : Ok a ≫= k = k a.
Proof. reflexivity. Qed.

(** Splits a hypothesis [x ← r; k = Ok b] into its successful steps. *)
Ltac res_inv H :=
  repeat match type of H with
         | _ ≫= _ = Ok _ =>
             let a := fresh "v" in
             let Ha := fresh "Hv" in
             apply res_bind_Ok in H as (a & Ha & H)
         | mret _ = Ok _ => unfold mret, res_ret in H
         | Ok _ = Ok _ => injection H as H
         end.

(** ** Python integers and lists *)

Section PyFacts.
Context {A : Type}.
Implicit Types l : list A.

Lemma round_div_mul k d : 0 < d -> Py.round_div (k * d) d = k.
Proof.
  intros Hd. unfold Py.round_div.
  rewrite Z.div_mul, Z.mod_mul by lia.
  rewrite Z.mul_0_r, (proj2 (Z.compare_lt_iff 0 d) Hd). reflexivity.
Qed.

Lemma round_div_bounds n d :
  0 < d -> 0 <= n ->
  0 <= Py.round_div n d /\ 2 * n - d <= 2 * d * Py.round_div n d <= 2 * n + d.
Proof.
  intros Hd Hn. unfold Py.round_div.
  pose proof (Z.div_mod n d ltac:(lia)) as Hdm.
  pose proof (Z.mod_pos_bound n d Hd) as Hr.
  assert (0 <= n / d) by (apply Z.div_pos; lia).
  destruct (Z.compare_spec (2 * (n mod d)) d); [destruct (Z.even (n / d))| |]; nia.
Qed.

Lemma slice_nonneg l a b :
  0 <= a -> 0 <= b ->
  Py.slice l a b
  = take (Z.to_nat (Z.min b (Z.of_nat (length l)) - Z.min a (Z.of_nat (length l))))
      (drop (Z.to_nat (Z.min a (Z.of_nat (length l)))) l).
Proof.
  intros Ha Hb. unfold Py.slice, Py.slice_index.
  destruct (Z.ltb_spec a 0), (Z.ltb_spec b 0); try lia. reflexivity.
Qed.

Lemma slice_sublist l a b : Py.slice l a b `sublist_of` l.
Proof.
  unfold Py.slice. etransitivity; [apply sublist_take | apply sublist_drop].
Qed.


Lemma slice_between l a b :
  0 <= a <= b -> b <= Z.of_nat (length l) ->
  Py.slice l a b = take (Z.to_nat (b - a)) (drop (Z.to_nat a) l).
Proof.
  intros Hab Hb. rewrite slice_nonneg by lia. simpl.
  rewrite !Z.min_l by lia. reflexivity.
Qed.

Lemma length_slice_between l a b :
  0 <= a <= b -> b <= Z.of_nat (length l) ->
  Z.of_nat (length (Py.slice l a b)) = b - a.
Proof.
  intros Hab Hb. rewrite slice_between by lia.
  rewrite length_take, length_drop. lia.
Qed.

Lemma times_nonpos l k : k <= 0 -> Py.times l k = [].
Proof. intros Hk. unfold Py.times. replace (Z.to_nat k) with O by lia. reflexivity. Qed.

Lemma elem_of_times l k x : x ∈ Py.times l k -> x ∈ l.
Proof.
  unfold Py.times. generalize (Z.to_nat k) as n.
  induction n as [|n IH]; simpl.
  - intros Hx. inversion Hx.
  - rewrite elem_of_app. intros [Hx|Hx]; auto.
Qed.




End PyFacts.

(** ** Floats *)

Section FloatFacts.
Import PyFloat.

Lemma lex_compare_antisym a b : lex_compare a b = CompOpp (lex_compare b a).
Proof.
  unfold lex_compare.
  rewrite (Z.compare_antisym (fst b) (fst a)).
  rewrite (Z.compare_antisym (fst (snd b)) (fst (snd a))).
  rewrite (Z.compare_antisym (snd (snd b)) (snd (snd a))).
  destruct (fst b ?= fst a), (fst (snd b) ?= fst (snd a)); reflexivity.
Qed.

Lemma lex_compare_refl a : lex_compare a a = Eq.
Proof. unfold lex_compare. by rewrite !Z.compare_refl. Qed.

Lemma lex_compare_eq a b : lex_compare a b = Eq -> a = b.
Proof.
  destruct a as [a1 [a2 a3]], b as [b1 [b2 b3]]. unfold lex_compare. simpl.
  destruct (Z.compare_spec a1 b1); try discriminate.
  destruct (Z.compare_spec a2 b2); try discriminate.
  intros ->%Z.compare_eq. congruence.
Qed.

(** [<], [<=] and [==] on floats read the order of the ranks. *)
Lemma compare_rank x y :
  is_nan x = false -> is_nan y = false ->
  SFcompare x y = Some (lex_compare (rank x) (rank y)).
Proof.
  destruct x as [sx|sx| |sx mx ex], y as [sy|sy| |sy my ey]; try discriminate;
    intros _ _; try destruct sx; try destruct sy; try reflexivity.
  unfold lex_compare, rank, SFcompare, fst, snd.
  rewrite Z.compare_opp, (Z.compare_antisym ex ey).
  change (-1 ?= -1) with Eq. cbv iota.
  destruct (ex ?= ey); reflexivity.
Qed.

Lemma ltb_false_leb x y :
  is_nan x = false -> is_nan y = false -> ltb y x = false -> leb x y = true.
Proof.
  intros Hx Hy. unfold ltb, leb, SFltb, SFleb.
  rewrite (compare_rank y x), (compare_rank x y) by done.
  rewrite (lex_compare_antisym (rank x)).
  by destruct (lex_compare (rank y) (rank x)).
Qed.

Lemma ltb_leb x y : ltb x y = true -> leb x y = true.
Proof. unfold ltb, leb, SFltb, SFleb. by destruct (SFcompare x y) as [[]|]. Qed.

Lemma eqb_not_nan x y : SFeqb x y = true -> is_nan x = false /\ is_nan y = false.
Proof. by destruct x, y. Qed.

Lemma eqb_ltb_absurd x y k :
  SFeqb x k = true -> SFeqb y k = true -> ltb y x = true -> False.
Proof.
  intros Hx Hy Hlt.
  destruct (eqb_not_nan _ _ Hx) as [Nx Nk]. destruct (eqb_not_nan _ _ Hy) as [Ny _].
  unfold ltb, SFltb, SFeqb in *.
  rewrite compare_rank in Hx, Hy, Hlt by done.
  destruct (lex_compare (rank x) (rank k)) eqn:Ex; try discriminate.
  destruct (lex_compare (rank y) (rank k)) eqn:Ey; try discriminate.
  apply lex_compare_eq in Ex, Ey. rewrite Ex, Ey, lex_compare_refl in Hlt.
  discriminate.
Qed.

End FloatFacts.

(** ** [list.sort] *)

Section SortFacts.
Context {A : Type} (key : A -> PyFloat.float).
Implicit Types l : list A.

#[local] Abbreviation sort := (Py.sort key PyFloat.ltb).
#[local] Abbreviation insert := (Py.insert key PyFloat.ltb).

Lemma insert_perm x l : insert x l ≡ₚ x :: l.
Proof.
  induction l as [|y l IH]; simpl; [done|].
  destruct (PyFloat.ltb _ _); [|done].
  rewrite IH. apply perm_swap.
Qed.

Lemma sort_perm l : sort l ≡ₚ l.
Proof.
  induction l as [|x l IH]; simpl; [done|].
  rewrite insert_perm. by constructor.
Qed.

Lemma insert_ascending x l :
  PyFloat.is_nan (key x) = false ->
  Forall (fun a => PyFloat.is_nan (key a) = false) l ->
  ascending key l -> ascending key (insert x l).
Proof.
  intros Hx Hl Hs. induction Hs as [|y l Hs IH Hhd]; simpl.
  - repeat constructor.
  - apply Forall_cons in Hl as [Hy Hl].
    destruct (PyFloat.ltb (key y) (key x)) eqn:Hlt.
    + constructor; [by apply IH|].
      destruct Hhd as [|z l Hz]; simpl.
      * constructor. by apply ltb_leb.
      * destruct (PyFloat.ltb (key z) (key x)); constructor; [done|].
        by apply ltb_leb.
    + constructor; [by constructor|]. constructor. by apply ltb_false_leb.
Qed.

Lemma sort_ascending l :
  Forall (fun a => PyFloat.is_nan (key a) = false) l -> ascending key (sort l).
Proof.
  induction 1 as [|x l Hx Hl IH]; simpl; [constructor|].
  apply insert_ascending; [done| |done].
  by rewrite sort_perm.
Qed.

Lemma ascending_adjacent l i a b :
  ascending key l -> l !! i = Some a -> l !! S i = Some b ->
  PyFloat.leb (key a) (key b) = true.
Proof.
  intros Hs. revert i. induction Hs as [|x l Hs IH Hhd]; intros i; [done|].
  destruct i as [|i]; simpl.
  - intros [= ->] Hb. destruct Hhd as [|y l Hy]; [done|].
    by injection Hb as <-.
  - apply IH.
Qed.

Lemma insert_with_key k x l : with_key key k (insert x l) = with_key key k (x :: l).
Proof.
  unfold with_key. induction l as [|y l IH]; simpl; [done|].
  destruct (PyFloat.ltb (key y) (key x)) eqn:Hlt; [|done].
  rewrite filter_cons, IH, !filter_cons.
  destruct (decide (SFeqb (key y) k = true)) as [Hy|]; [|done].
  destruct (decide (SFeqb (key x) k = true)) as [Hx|]; [|done].
  destruct (eqb_ltb_absurd _ _ _ Hx Hy Hlt).
Qed.

Lemma sort_with_key k l : with_key key k (sort l) = with_key key k l.
Proof.
  induction l as [|x l IH]; simpl; [done|].
  rewrite insert_with_key. unfold with_key in *. by rewrite !filter_cons, IH.
Qed.

End SortFacts.

(** ** pydub *)

Section PydubFacts.
Context {frame : Type} `{SampleFormat frame}.
Implicit Types seg : Pydub.AudioSegment frame.

Lemma fpm_pos : 0 < frames_per_ms.
Proof. apply frames_per_ms_pos. Qed.

Lemma len_nonneg seg : 0 <= Pydub.len seg.
Proof.
  unfold Pydub.len, Pydub.frame_count.
  apply round_div_bounds; [apply fpm_pos | lia].
Qed.


Lemma len_whole seg k : whole_ms seg k -> Pydub.len seg = k.
Proof.
  intros [Hk Hn]. unfold Pydub.len, Pydub.frame_count. rewrite Hn.
  apply round_div_mul, fpm_pos.
Qed.

Lemma parse_position_nonneg seg v :
  0 <= v -> Pydub._parse_position seg v = v * frames_per_ms.
Proof.
  intros Hv. unfold Pydub._parse_position, Pydub.frame_count_ms.
  destruct (Z.ltb_spec v 0); [lia | reflexivity].
Qed.

(** Whatever a slice returns is made of frames of the segment, followed by
    silence that [audioop.mul] produced. *)
Lemma getitem_range_frames seg a b out :
  Pydub.getitem_range seg a b = Ok out ->
  exists pad,
    Pydub._data out
    = Py.slice (Pydub._data seg) (Pydub._parse_position seg a) (Pydub._parse_position seg b)
      ++ pad
    /\ Forall scaled pad.
Proof.
  unfold Pydub.getitem_range.
  set (data := Py.slice _ _ _).
  destruct (_ =? 0).
  - intros [= <-]. exists []. simpl. rewrite app_nil_r. auto.
  - destruct (_ <? _); [discriminate|].
    intros [= <-]. eexists. split; [reflexivity|].
    apply Forall_forall. intros f Hf%elem_of_times.
    unfold Pydub.mul in Hf. apply list_elem_of_fmap in Hf as (x & -> & _).
    by exists 0%Q, x.
Qed.


End PydubFacts.

Section FadeFacts.
Context {frame : Type} `{SampleFormat frame}.
Implicit Types seg : Pydub.AudioSegment frame.

Lemma getitem_slice_frames seg st en out :
  Pydub.getitem_slice seg st en = Ok out ->
  Forall (fun f => f ∈ Pydub._data seg \/ scaled f) (Pydub._data out).
Proof.
  unfold Pydub.getitem_slice. intros (pad & -> & Hpad)%getitem_range_frames.
  apply Forall_app. split.
  - apply Forall_forall. intros f Hf. left.
    eapply elem_of_sublist; [exact Hf | apply slice_sublist].
  - eapply Forall_impl; [exact Hpad | auto].
Qed.

Lemma mul_scaled (l : list frame) g : Forall scaled (Pydub.mul l g).
Proof.
  apply Forall_forall. intros f (x & -> & _)%list_elem_of_fmap. by exists g, x.
Qed.

Lemma fade_precise_scaled seg fp gd sf ff :
  Forall scaled (Pydub.fade_precise seg fp gd sf ff).
Proof.
  unfold Pydub.fade_precise. apply Forall_forall.
  intros f (l & Hf & Hl)%list_elem_of_join.
  apply list_elem_of_fmap in Hl as (i & -> & _).
  revert f Hf. apply Forall_forall, mul_scaled.
Qed.

Lemma fade_coarse_scaled seg fp st s i n out :
  Pydub.fade_coarse seg fp st s i n = Ok out -> Forall scaled out.
Proof.
  revert i out. induction n as [|n IH]; intros i out; simpl.
  - intros [= <-]. constructor.
  - intros Hrun. res_inv Hrun. subst out.
    apply Forall_app. split; [apply mul_scaled | eauto].
Qed.

Lemma fade_between_frames seg tg fg s e d out :
  Pydub.fade_between seg tg fg s e d = Ok out ->
  Forall (fun f => f ∈ Pydub._data seg \/ scaled f) (Pydub._data out).
Proof.
  unfold Pydub.fade_between. intros Hrun. cbv zeta in Hrun.
  res_inv Hrun. subst out. simpl.
  rewrite !Forall_app. split_and!.
  - destruct (fg =? 0); [by eapply getitem_slice_frames|].
    eapply Forall_impl; [apply mul_scaled | auto].
  - assert (Forall scaled v0) as Hs.
    { destruct (100 <? d); [by eapply fade_coarse_scaled|].
      injection Hv0 as <-. apply fade_precise_scaled. }
    eapply Forall_impl; [exact Hs | auto].
  - destruct (tg =? 0); [by eapply getitem_slice_frames|].
    eapply Forall_impl; [apply mul_scaled | auto].
Qed.

(** Every frame a fade returns is a frame of the segment or a scaled one. *)
Lemma fade_frames seg tg fg st en d out :
  Pydub.fade seg tg fg st en d = Ok out ->
  Forall (fun f => f ∈ Pydub._data seg \/ scaled f) (Pydub._data out).
Proof.
  unfold Pydub.fade. intros Hrun.
  assert (Hbody :
    (if (tg =? 0) && (fg =? 0) then Ok seg
     else '(s, e) ← Pydub.fade_window seg st en d;
          Pydub.fade_between seg tg fg s e d) = Ok out).
  { destruct st, en; try discriminate; exact Hrun. }
  clear Hrun. destruct (_ && _).
  - injection Hbody as <-. apply Forall_forall. auto.
  - apply res_bind_Ok in Hbody as ([s e] & _ & Hrun).
    by eapply fade_between_frames.
Qed.

End FadeFacts.

Section SliceTotal.
Context {frame : Type} `{SampleFormat frame}.
Implicit Types seg : Pydub.AudioSegment frame.


Lemma fade_window_in seg d :
  0 < d -> Pydub.fade_window seg (Some (Pydub.Ms 0)) None d = Ok (0, d).
Proof.
  intros Hd. unfold Pydub.fade_window. simpl.
  pose proof (len_nonneg seg).
  rewrite Z.min_r by lia. simpl.
  destruct (Z.ltb_spec d 0); [lia|].
  destruct (Z.eqb_spec d 0); [lia|]. reflexivity.
Qed.

Lemma fade_window_out seg d :
  0 < d ->
  Pydub.fade_window seg None (Some Pydub.Inf) d = Ok (Pydub.len seg - d, Pydub.len seg).
Proof.
  intros Hd. unfold Pydub.fade_window. simpl.
  pose proof (len_nonneg seg).
  destruct (Z.ltb_spec (Pydub.len seg) 0); [lia|].
  destruct (Z.ltb_spec d 0); [lia|].
  destruct (Z.eqb_spec d 0); [lia|]. reflexivity.
Qed.

Lemma fade_in_eq seg d :
  0 < d -> Pydub.fade_in seg d = Pydub.fade_between seg 0 (-120) 0 d d.
Proof.
  intros Hd. unfold Pydub.fade_in, Pydub.fade. simpl.
  rewrite fade_window_in by done. reflexivity.
Qed.

Lemma fade_out_eq seg d :
  0 < d ->
  Pydub.fade_out seg d
  = Pydub.fade_between seg (-120) 0 (Pydub.len seg - d) (Pydub.len seg) d.
Proof.
  intros Hd. unfold Pydub.fade_out, Pydub.fade. simpl.
  rewrite fade_window_out by done. reflexivity.
Qed.




End SliceTotal.

(** ** Segments of whole milliseconds *)

Section WholeFacts.
Context {frame : Type} `{SampleFormat frame}.
Implicit Types seg : Pydub.AudioSegment frame.

Lemma getitem_range_whole seg k a b :
  whole_ms seg k -> 0 <= a <= b -> b <= k ->
  Pydub.getitem_range seg a b
  = Ok (Pydub._spawn (take (Z.to_nat ((b - a) * frames_per_ms))
                        (drop (Z.to_nat (a * frames_per_ms)) (Pydub._data seg)))).
Proof.
  intros [Hk Hn] Hab Hb. pose proof fpm_pos as Hf.
  unfold Pydub.getitem_range.
  rewrite !parse_position_nonneg by lia.
  assert (0 <= a * frames_per_ms <= b * frames_per_ms) by nia.
  assert (b * frames_per_ms <= Z.of_nat (length (Pydub._data seg))) by nia.
  rewrite length_slice_between by lia.
  rewrite Z.sub_diag. simpl.
  rewrite slice_between by lia.
  repeat f_equal. lia.
Qed.

(** [seg[:b]] *)
Lemma getitem_prefix_whole seg k b :
  whole_ms seg k -> 0 <= b ->
  Pydub.getitem_slice seg None (Some b)
  = Ok (Pydub._spawn (take (Z.to_nat (Z.min b k * frames_per_ms)) (Pydub._data seg))).
Proof.
  intros Hw Hb. pose proof Hw as [Hk _]. unfold Pydub.getitem_slice. simpl.
  rewrite (len_whole _ _ Hw), (Z.min_l 0) by lia.
  rewrite (getitem_range_whole _ k) by (done || lia).
  rewrite Z.sub_0_r. simpl. by rewrite drop_0.
Qed.

(** [seg[a:]] *)
Lemma getitem_suffix_whole seg k a :
  whole_ms seg k -> 0 <= a ->
  Pydub.getitem_slice seg (Some a) None
  = Ok (Pydub._spawn (drop (Z.to_nat (Z.min a k * frames_per_ms)) (Pydub._data seg))).
Proof.
  intros Hw Ha. pose proof Hw as [Hk Hn]. unfold Pydub.getitem_slice. simpl.
  rewrite (len_whole _ _ Hw), (Z.min_l k k) by lia.
  rewrite (getitem_range_whole _ k) by (done || lia).
  rewrite take_ge; [done|]. rewrite length_drop. nia.
Qed.

Lemma whole_ms_prefix seg k b :
  whole_ms seg k -> 0 <= b ->
  whole_ms (Pydub._spawn (take (Z.to_nat (Z.min b k * frames_per_ms)) (Pydub._data seg)))
    (Z.min b k).
Proof.
  intros [Hk Hn] Hb. pose proof fpm_pos. split; [lia|]. simpl.
  rewrite length_take. nia.
Qed.

Lemma take_one_lookup {A} (l : list A) j x :
  l !! j = Some x -> take 1 (drop j l) = [x].
Proof.
  revert j. induction l as [|y l IH]; intros [|j]; simpl; try done.
  - intros [= ->]. by rewrite take_0.
  - apply IH.
Qed.

Lemma get_frame_lookup seg j x :
  Pydub._data seg !! j = Some x -> Pydub.get_frame seg (Z.of_nat j) = [x].
Proof.
  intros Hj. unfold Pydub.get_frame. pose proof (lookup_lt_Some _ _ _ Hj).
  rewrite slice_between by lia.
  replace (Z.to_nat (Z.of_nat j + 1 - Z.of_nat j)) with 1%nat by lia.
  rewrite Nat2Z.id. by apply take_one_lookup.
Qed.

Lemma get_frame_beyond seg j :
  Z.of_nat (length (Pydub._data seg)) <= j -> Pydub.get_frame seg j = [].
Proof.
  intros Hj. unfold Pydub.get_frame. rewrite slice_nonneg by lia.
  rewrite !Z.min_r by lia. by rewrite Z.sub_diag.
Qed.

(** A loop that yields one item for each of the first [length l] indices
    and nothing afterwards builds [imap]. *)
Lemma join_singletons {A B} (h : nat -> list B) (g : nat -> A -> B) (l : list A) n :
  (forall i x, l !! i = Some x -> h i = [g i x]) ->
  (forall i, (length l <= i)%nat -> h i = []) ->
  mjoin (h <$> seq 0 n) = imap g (take n l).
Proof.
  revert h g l. induction n as [|n IH]; intros h g l Hin Hout; [by rewrite take_0|].
  simpl. rewrite <- fmap_S_seq, <- list_fmap_compose.
  destruct l as [|x l].
  - rewrite (Hout 0%nat) by (simpl; lia). simpl.
    rewrite (IH _ (g ∘ S) []); [by rewrite take_nil|by intros i x|].
    intros i _. apply Hout. simpl. lia.
  - rewrite (Hin 0%nat x) by done. simpl. f_equal.
    apply IH.
    + intros i y Hi. by apply (Hin (S i)).
    + intros i Hi. apply (Hout (S i)). simpl. lia.
Qed.

(** The precise branch of a fade that starts inside the data: the frames
    from [start_frame] on, each under its own gain. *)
Lemma fade_precise_imap seg fp gd sf ff :
  0 <= sf ->
  Pydub.fade_precise seg fp gd sf ff
  = imap (fun i => audioop_mul (fp + gd / inject_Z ff * inject_Z (Z.of_nat i))%Q)
      (take (Z.to_nat ff) (drop (Z.to_nat sf) (Pydub._data seg))).
Proof.
  intros Hsf. unfold Pydub.fade_precise.
  apply (join_singletons _ (fun i => audioop_mul _)).
  - intros i x Hi. rewrite lookup_drop in Hi.
    replace (sf + Z.of_nat i) with (Z.of_nat (Z.to_nat sf + i)) by lia.
    by rewrite (get_frame_lookup _ _ x).
  - intros i Hi. rewrite length_drop in Hi.
    rewrite get_frame_beyond; [done | lia].
Qed.

(** [fade_in(20)] on whole milliseconds is [ramp_in]. *)
Lemma fade_in_whole seg k :
  whole_ms seg k ->
  Pydub.fade_in seg 20 = Ok (Pydub._spawn (ramp_in 20 (Pydub._data seg))).
Proof.
  intros Hw. pose proof Hw as [Hk Hn]. pose proof fpm_pos.
  rewrite fade_in_eq by lia. unfold Pydub.fade_between.
  rewrite (getitem_prefix_whole _ k), (getitem_suffix_whole _ k) by (done || lia).
  rewrite !bind_Ok. change (-120 =? 0) with false. change (0 =? 0) with true.
  change (100 <? 20) with false. cbv iota zeta. rewrite !bind_Ok.
  cbn [Pydub._data].
  rewrite fade_precise_imap by (unfold Pydub.frame_count_ms; lia).
  rewrite (Z.min_l 0), Z.mul_0_l by lia. rewrite take_0.
  unfold ramp_in, gain_in, Pydub.frame_count_ms, Pydub.mul.
  rewrite Z.mul_0_l, Z.sub_0_r, drop_0. cbn [map app].
  do 3 f_equal.
  destruct (Z.le_ge_cases 20 k).
  - by rewrite Z.min_l by lia.
  - rewrite Z.min_r by lia. rewrite !drop_ge; [done|nia..].
Qed.

(** [fade_out(20)] on at least 20 whole milliseconds is [ramp_out]. *)
Lemma fade_out_whole seg k :
  whole_ms seg k -> 20 <= k ->
  Pydub.fade_out seg 20 = Ok (Pydub._spawn (ramp_out 20 k (Pydub._data seg))).
Proof.
  intros Hw Hk20. pose proof Hw as [Hk Hn]. pose proof fpm_pos.
  rewrite fade_out_eq by lia. rewrite (len_whole _ _ Hw).
  unfold Pydub.fade_between.
  rewrite (getitem_prefix_whole _ k), (getitem_suffix_whole _ k) by (done || lia).
  rewrite !bind_Ok. change (-120 =? 0) with false. change (0 =? 0) with true.
  change (100 <? 20) with false. cbv iota zeta. rewrite !bind_Ok.
  cbn [Pydub._data].
  rewrite fade_precise_imap by (unfold Pydub.frame_count_ms; nia).
  unfold ramp_out, gain_out, Pydub.frame_count_ms, Pydub.mul.
  rewrite !Z.min_l by lia.
  rewrite (drop_ge _ (Z.to_nat (k * _))) by lia.
  rewrite fmap_nil, app_nil_r.
  do 3 f_equal.
  rewrite take_ge; [done|]. rewrite length_drop. nia.
Qed.

Lemma ramp_in_length d (l : list frame) : length (ramp_in d l) = length l.
Proof.
  unfold ramp_in. rewrite length_app, length_imap, <- length_app.
  by rewrite take_drop.
Qed.

Lemma ramp_out_length d k (l : list frame) : length (ramp_out d k l) = length l.
Proof.
  unfold ramp_out. rewrite length_app, length_imap, <- length_app.
  by rewrite take_drop.
Qed.

End WholeFacts.

Section EmptyFacts.
Context {frame : Type} `{SampleFormat frame}.
Implicit Types seg : Pydub.AudioSegment frame.

Lemma slice_nil {A} a b : Py.slice (@nil A) a b = [].
Proof. unfold Py.slice. by rewrite drop_nil, take_nil. Qed.

Lemma fade_precise_nil fp gd sf ff :
  Pydub.fade_precise (Pydub._spawn (@nil frame)) fp gd sf ff = [].
Proof.
  unfold Pydub.fade_precise. apply join_nil_2, Forall_forall.
  intros l (i & -> & _)%list_elem_of_fmap.
  unfold Pydub.get_frame. simpl. by rewrite slice_nil.
Qed.


Lemma getitem_range_nil a b :
  Pydub._parse_position (Pydub._spawn (@nil frame)) b
    <= Pydub._parse_position (Pydub._spawn (@nil frame)) a ->
  Pydub.getitem_range (Pydub._spawn (@nil frame)) a b = Ok (Pydub._spawn []).
Proof.
  intros Hle. unfold Pydub.getitem_range. cbn [Pydub._data].
  rewrite !slice_nil. cbn [length]. rewrite Z.sub_0_r.
  destruct (Z.eqb_spec (Pydub._parse_position (Pydub._spawn []) b
                        - Pydub._parse_position (Pydub._spawn []) a) 0); [done|].
  pose proof fpm_pos. unfold Pydub.frame_count_ms.
  destruct (Z.ltb_spec (2 * frames_per_ms)
              (Pydub._parse_position (Pydub._spawn []) b
               - Pydub._parse_position (Pydub._spawn []) a)); [lia|].
  by rewrite times_nonpos by lia.
Qed.

Lemma fade_out_nil : Pydub.fade_out (Pydub._spawn (@nil frame)) 20 = Ok (Pydub._spawn []).
Proof.
  pose proof fpm_pos.
  assert (Hlen : Pydub.len (Pydub._spawn (@nil frame)) = 0).
  { apply len_whole. split; [lia|]. simpl. lia. }
  rewrite fade_out_eq by lia. rewrite Hlen. unfold Pydub.fade_between.
  unfold Pydub.getitem_slice. rewrite Hlen. cbn [default].
  rewrite !getitem_range_nil.
  - rewrite !bind_Ok. change (-120 =? 0) with false. change (0 =? 0) with true.
    change (100 <? 20) with false. cbv iota zeta. rewrite !bind_Ok.
    by rewrite fade_precise_nil.
  - change (id (0 - 20) `min` 0) with (-20). change (0 `min` 0) with 0.
    unfold Pydub._parse_position, Pydub.frame_count_ms. rewrite Hlen.
    change (-20 <? 0) with false || change (-20 <? 0) with true.
    change (0 <? 0) with false. cbv iota. lia.
  - change (id 0 `min` 0) with (0 `min` 0). lia.
Qed.

End EmptyFacts.

(** ** The store *)

Section StoreFacts.
Context {frame : Type} `{SampleFormat frame}.
Implicit Types self : Main.AudioContentModerator (frame := frame).

(** [_replace_profanity] sorts the list object where it lies, then runs
    the loop over the sorted elements; the sort stays when the loop raises. *)
Lemma replace_profanity_run self audio l σ :
  Main._replace_profanity self audio l σ
  = (Main.replace_loop self audio
       (Py.sort start_time PyFloat.ltb (default [] (heap σ !! l))),
     {| heap := alter (Py.sort start_time PyFloat.ltb) l (heap σ);
        files := files σ |}).
Proof.
  unfold Main._replace_profanity, Main.list_sort_by_start_time, Main.elements_of,
    Main.lift, mbind, Main.M_bind. cbn [heap files].
  rewrite lookup_alter_eq. by destruct (heap σ !! l).
Qed.

End StoreFacts.

(** ** One splice *)

Section SpliceFacts.
Context {frame : Type} `{SampleFormat frame}.
Implicit Types audio out : Pydub.AudioSegment frame.
Implicit Types self : Main.AudioContentModerator (frame := frame).





Context `{!EqDecision frame}.




End SpliceFacts.

(** ** The scanner and the store *)

Section ScannerFacts.
Context {frame : Type} `{SampleFormat frame} `{Lexicon}.
Implicit Types self : Main.AudioContentModerator (frame := frame).

Lemma flagged_of_cons segment segs :
  flagged_of (segment :: segs)
  = (if contains_profanity (seg_word segment) then
       [{| word := seg_word segment;
           start_time := seg_start_time segment;
           end_time := seg_end_time segment;
           censored_text := censor (seg_word segment) |}]
     else []) ++ flagged_of segs.
Proof. unfold flagged_of. simpl. by destruct (contains_profanity _). Qed.

(** The loop of [_detect_profanity] appends what it flags to the list
    object it was given. *)
Lemma detect_loop l segs acc hp fs :
  Main.for_ segs (fun segment =>
    let word := seg_word segment in
    if contains_profanity word then
      Main.list_append l
        {| word := word;
           start_time := seg_start_time segment;
           end_time := seg_end_time segment;
           censored_text := censor word |}
    else mret tt) {| heap := <[l := acc]> hp; files := fs |}
  = (Ok tt, {| heap := <[l := acc ++ flagged_of segs]> hp; files := fs |}).
Proof.
  revert acc. induction segs as [|segment segs IH]; intros acc.
  - simpl. by rewrite app_nil_r.
  - rewrite flagged_of_cons. cbn [Main.for_].
    unfold mbind, Main.M_bind. cbv zeta.
    destruct (contains_profanity (seg_word segment)).
    + unfold Main.list_append at 1. cbn [heap files].
      rewrite alter_insert_eq, IH. by rewrite <- app_assoc.
    + unfold mret, Main.M_ret. by rewrite IH.
Qed.

(** [_detect_profanity] creates one list object and fills it. *)
Lemma detect_profanity_run segs σ :
  Main._detect_profanity segs σ
  = (Ok (fresh (dom (heap σ))),
     {| heap := <[fresh (dom (heap σ)) := flagged_of segs]> (heap σ);
        files := files σ |}).
Proof.
  unfold Main._detect_profanity, mbind, Main.M_bind, Main.new_list.
  by rewrite detect_loop.
Qed.

Lemma fresh_object (σ : state) : heap σ !! fresh (dom (heap σ)) = None.
Proof. apply not_elem_of_dom, is_fresh. Qed.

Lemma flagged_of_not_nan segs :
  Forall (fun s => PyFloat.is_nan (seg_start_time s) = false) segs ->
  Forall (fun i => PyFloat.is_nan (start_time i) = false) (flagged_of segs).
Proof.
  induction 1 as [|segment segs Hs _ IH]; [constructor|].
  rewrite flagged_of_cons. destruct (contains_profanity _); simpl; auto.
Qed.

End ScannerFacts.

(** ** The claims *)

Section Claims.
Context {frame : Type} `{SampleFormat frame} `{Lexicon}.
Implicit Types self : Main.AudioContentModerator (frame := frame).
Implicit Types audio : Pydub.AudioSegment frame.

(** C4. Splicing with an empty list of flagged intervals returns the
    original audio buffer unchanged, and leaves the store as it was. *)
Theorem no_detections_identity self audio l σ :
  heap σ !! l = Some [] ->
  Main._replace_profanity self audio l σ = (Ok audio, σ).
Proof.
  intros Hl. rewrite replace_profanity_run, Hl. simpl.
  rewrite alter_id; [by destruct σ|].
  intros x Hx. rewrite Hl in Hx. by injection Hx as <-.
Qed.

(** C8. When the list of flagged intervals is empty, the report written is
    the header followed by the single line "No profanity detected in the
    audio." and a newline; no count line is written. *)
Theorem empty_report l output_path σ :
  heap σ !! l = Some [] ->
  exists σ',
    Main.save_report l output_path σ = (Ok tt, σ')
    /\ heap σ' = heap σ
    /\ files σ' !! output_path
       = Some (report_header ++ "No profanity detected in the audio." ++ Str.nl)%string
    /\ has_count_line
         (report_header ++ "No profanity detected in the audio." ++ Str.nl) = false.
Proof.
  intros Hl. eexists. split_and!.
  - unfold Main.save_report, mbind, Main.M_bind, Main.open_w, Main.write,
      Main.elements_of. cbn [heap files]. rewrite Hl. cbn [default]. reflexivity.
  - reflexivity.
  - cbn [files]. rewrite !alter_insert_eq, lookup_insert_eq. reflexivity.
  - reflexivity.
Qed.

(** C7. After the scanner has run and [_replace_profanity] has sorted what
    it flagged, adjacent intervals are in ascending order of start, and
    the intervals with one and the same start are in transcription order:
    the sort is stable. *)
Theorem flagged_intervals_sorted_stable self audio segs σ :
  Forall (fun s => PyFloat.is_nan (seg_start_time s) = false) segs ->
  exists l σ1 sorted,
    Main._detect_profanity segs σ = (Ok l, σ1)
    /\ heap (Main._replace_profanity self audio l σ1).2 !! l = Some sorted
    /\ (forall i a b, sorted !! i = Some a -> sorted !! S i = Some b ->
                      PyFloat.leb (start_time a) (start_time b) = true)
    /\ (forall k, with_key start_time k sorted = with_key start_time k (flagged_of segs))
    /\ sorted ≡ₚ flagged_of segs.
Proof.
  intros Hsegs. rewrite detect_profanity_run.
  eexists _, _, _. split; [reflexivity|].
  rewrite replace_profanity_run. cbn [snd heap].
  rewrite lookup_alter_eq, lookup_insert_eq. cbn [fmap option_fmap option_map].
  split_and!; [reflexivity| | |].
  - intros i a b. apply ascending_adjacent, sort_ascending.
    by apply flagged_of_not_nan.
  - intros k. apply sort_with_key.
  - apply sort_perm.
Qed.

(** C10. [_replace_profanity] sorts the list object it is given, so the
    caller's list changes: the list [process_audio] returns is the object
    the scanner created, and on return that object holds the flagged
    intervals ascending by start time; no second list is made. *)
Theorem process_audio_sorts_in_place self from_file path σ processed l σ' :
  Main.process_audio self from_file path σ = (Ok (processed, l), σ') ->
  let found := flagged_of (Main._transcribe_audio self path) in
  heap σ !! l = None
  /\ (exists σ1, Main._detect_profanity (Main._transcribe_audio self path) σ = (Ok l, σ1)
                 /\ heap σ1 = <[l := found]> (heap σ))
  /\ heap σ' = <[l := Py.sort start_time PyFloat.ltb found]> (heap σ)
  /\ files σ' = files σ.
Proof.
  unfold Main.process_audio, mbind, Main.M_bind, Main.lift.
  destruct (from_file path) as [audio|]; [|discriminate].
  rewrite detect_profanity_run, replace_profanity_run.
  cbn [heap files]. rewrite lookup_insert_eq. cbn [default].
  destruct (Main.replace_loop _ _ _); [|discriminate].
  unfold mret, Main.M_ret. intros [= <- <- <-]. cbn [heap files].
  split_and!.
  - apply fresh_object.
  - eexists. split; reflexivity.
  - by rewrite alter_insert_eq.
  - reflexivity.
Qed.

End Claims.

Section TruncFacts.
Import PyFloat.

Lemma trunc_Q_inject z : trunc_Q (inject_Z z) = z.
Proof. unfold trunc_Q. simpl. apply Z.quot_1_r. Qed.

(** [int] drops the fraction of the exact value. *)
Lemma int_trunc x z : int x = Ok z -> z = trunc_Q (to_Q x).
Proof.
  destruct x as [s|s| |s m e]; try discriminate; simpl.
  - by intros [= <-].
  - intros [= <-]. destruct e as [|p|p].
    + rewrite trunc_Q_inject. by rewrite Z.shiftl_0_r, Z.pow_0_r, Z.mul_1_r.
    + rewrite trunc_Q_inject. by rewrite Z.shiftl_mul_pow2 by lia.
    + unfold trunc_Q. cbn [Qnum Qden].
      change (Z.shiftl (Z.pos m) (Z.neg p)) with (Z.shiftr (Z.pos m) (Z.pos p)).
      rewrite Z.shiftr_div_pow2 by lia. rewrite Pos2Z.inj_pow.
      assert (0 < 2 ^ Z.pos p) by (apply Z.pow_pos_nonneg; lia).
      destruct s; simpl cond_Zopp.
      * change (Z.neg m) with (- Z.pos m).
        rewrite Z.quot_opp_l by lia. f_equal.
        symmetry. apply Z.quot_div_nonneg; lia.
      * symmetry. apply Z.quot_div_nonneg; lia.
Qed.

(** Truncation goes toward zero, by less than one. *)
Lemma trunc_Q_bounds q :
  (inject_Z (Z.abs (trunc_Q q)) <= Qabs q)%Q
  /\ (Qabs q < inject_Z (Z.abs (trunc_Q q)) + 1)%Q
  /\ 0 <= trunc_Q q * Qnum q.
Proof.
  destruct q as [a b]. unfold trunc_Q, Qabs, Qle, Qlt. cbn [Qnum Qden Qplus inject_Z].
  rewrite <- Z.quot_abs by lia. change (Z.abs (Z.pos b)) with (Z.pos b).
  assert (Hb : 0 < Z.pos b) by lia.
  rewrite (Z.quot_div_nonneg (Z.abs a)) by lia.
  pose proof (Z.div_mod (Z.abs a) (Z.pos b) ltac:(lia)) as Hdm.
  pose proof (Z.mod_pos_bound (Z.abs a) (Z.pos b) Hb) as Hr.
  split_and!.
  - simpl. nia.
  - simpl. nia.
  - destruct (Z.le_ge_cases 0 a) as [Ha|Ha].
    + apply Z.mul_nonneg_nonneg; [apply Z.quot_pos|]; lia.
    + apply Z.mul_nonpos_nonpos; [|lia].
      rewrite <- (Z.opp_involutive a), Z.quot_opp_l by lia.
      assert (0 <= - a ÷ Z.pos b) by (apply Z.quot_pos; lia). lia.
Qed.

End TruncFacts.

Section Determinism.
Context {frame : Type} `{SampleFormat frame}.
Implicit Types self : Main.AudioContentModerator (frame := frame).






(** C6 (as amended). The millisecond bounds are the integer parts of the
    float products [start * 1000] and [end * 1000]: the fraction is
    dropped, toward zero, not rounded to the nearest integer. *)
Theorem to_ms_truncates i start_ms end_ms :
  interval_ms i start_ms end_ms ->
  let v (t : PyFloat.float) := PyFloat.to_Q (t * PyFloat.of_int 1000)%pyfloat in
  start_ms = PyFloat.trunc_Q (v (start_time i))
  /\ end_ms = PyFloat.trunc_Q (v (end_time i))
  /\ (inject_Z (Z.abs start_ms) <= Qabs (v (start_time i)) < inject_Z (Z.abs start_ms) + 1)%Q
  /\ (inject_Z (Z.abs end_ms) <= Qabs (v (end_time i)) < inject_Z (Z.abs end_ms) + 1)%Q.
Proof.
  intros [Hs%int_trunc He%int_trunc] v. fold (v (start_time i)) in Hs.
  fold (v (end_time i)) in He. subst start_ms end_ms.
  split_and!; try reflexivity; apply trunc_Q_bounds.
Qed.

End Determinism.

(** ** Splices on whole milliseconds *)

Section WholeSplice.
Context {frame : Type} `{SampleFormat frame}.
Implicit Types self : Main.AudioContentModerator (frame := frame).
Implicit Types audio : Pydub.AudioSegment frame.

Lemma ramp_in_nil d : ramp_in d (@nil frame) = [].
Proof. unfold ramp_in. by rewrite take_nil, drop_nil. Qed.

Lemma ramp_out_nil d k : ramp_out d k (@nil frame) = [].
Proof. unfold ramp_out. by rewrite take_nil, drop_nil. Qed.



(** The replacement for [d] milliseconds, cut from a clip of [kc] whole
    milliseconds, when what is cut is empty or lasts 20 ms at least. *)
Lemma adjust_replacement_whole self kc d :
  whole_ms (Main.replacement_sound self) kc -> 0 <= d ->
  Z.min d kc = 0 \/ 20 <= Z.min d kc ->
  Main.adjust_replacement self d
  = Ok (Pydub._spawn
          (ramp_out 20 (Z.min d kc)
             (ramp_in 20 (take (Z.to_nat (Z.min d kc * frames_per_ms))
                            (Pydub._data (Main.replacement_sound self)))))).
Proof.
  intros Hw Hd Hp. unfold Main.adjust_replacement.
  rewrite (getitem_prefix_whole _ kc), bind_Ok by done.
  pose proof (whole_ms_prefix _ _ d Hw Hd) as Hwp.
  rewrite (fade_in_whole _ _ Hwp), bind_Ok. cbn [Pydub._data].
  destruct Hp as [Hp|Hp].
  - rewrite Hp. rewrite Z.mul_0_l. cbn [Z.to_nat]. rewrite take_0.
    by rewrite ramp_in_nil, ramp_out_nil, fade_out_nil.
  - apply fade_out_whole; [|done].
    destruct Hwp as [? Hn]. split; [done|]. cbn [Pydub._data] in *.
    by rewrite ramp_in_length.
Qed.

Lemma adjust_replacement_length self kc d r :
  whole_ms (Main.replacement_sound self) kc -> 0 <= d ->
  Z.min d kc = 0 \/ 20 <= Z.min d kc ->
  Main.adjust_replacement self d = Ok r ->
  whole_ms r (Z.min d kc).
Proof.
  intros Hw Hd Hp. rewrite (adjust_replacement_whole _ kc) by done.
  intros [= <-]. destruct (whole_ms_prefix _ _ d Hw Hd) as [? Hn].
  split; [done|]. cbn [Pydub._data] in *.
  by rewrite ramp_out_length, ramp_in_length.
Qed.



End WholeSplice.

Section ClaimsSplice.
Context {frame : Type} `{SampleFormat frame} `{!EqDecision frame}.
Implicit Types self : Main.AudioContentModerator (frame := frame).
Implicit Types audio : Pydub.AudioSegment frame.





End ClaimsSplice.

(** ** Durations when no splice shrinks the buffer *)

Section NoDrift.
Context {frame : Type} `{SampleFormat frame}.
Implicit Types self : Main.AudioContentModerator (frame := frame).
Implicit Types audio : Pydub.AudioSegment frame.



End NoDrift.

(** ** The claims on concrete inputs *)

Section Concrete.
#[local] Existing Instance mono16_1k.
#[local] Existing Instance Ex.lexicon.

(** C1 (the code at a failing input).  One second of audio, a clip of
    100 ms, and two flagged intervals, [0, 500) and [600, 1000) ms: sorted,
    apart, inside the buffer.  The duration formula gives 300 ms.  The
    loop returns 700 ms: the first splice shrinks the buffer to 600 ms,
    and the second one then cuts at 600 ms of the shrunk buffer, where
    nothing is left to cut, so the original from 500 ms to its end, the
    second flagged word included, stays in the output. *)
Theorem drift_after_short_clip :
  let audio := Ex.ramp 0 1000 in
  let clip := Ex.flat (-1000) 100 in
  let first := Ex.flagged 0 500 in
  let second := Ex.flagged 600 1000 in
  interval_ms first 0 500 /\ interval_ms second 600 1000
  /\ Pydub.len audio = 1000 /\ Pydub.len clip = 100
  /\ Design.expected_duration 1000 100 [500 - 0; 1000 - 600] = 300
  /\ exists out,
       (Main._replace_profanity (Ex.moderator clip) audio 1%positive
          (Ex.store_with [first; second])).1 = Ok out
       /\ Pydub.len out = 700
       /\ take 500 (drop 100 (Pydub._data out)) = drop 500 (Pydub._data audio).
Proof.
  cbv zeta. unfold interval_ms. split_and!; try (vm_compute; reflexivity).
  eexists. split_and!; vm_compute; reflexivity.
Qed.

(** C4, at an input. *)
Lemma no_detections_identity_witness :
  heap (Ex.store_with []) !! 1%positive = Some []
  /\ Main._replace_profanity (Ex.moderator (Ex.flat (-1000) 100)) (Ex.ramp 0 1000)
       1%positive (Ex.store_with [])
     = (Ok (Ex.ramp 0 1000), Ex.store_with []).
Proof.
  assert (Hl : heap (Ex.store_with []) !! 1%positive = Some []) by reflexivity.
  split; [exact Hl|].
  exact (no_detections_identity (Ex.moderator (Ex.flat (-1000) 100)) (Ex.ramp 0 1000)
           1%positive (Ex.store_with []) Hl).
Defined.

(** C8, at an input. *)
Lemma empty_report_witness :
  heap (Ex.store_with []) !! 1%positive = Some []
  /\ exists σ',
       Main.save_report 1%positive "moderation_report.txt" (Ex.store_with []) = (Ok tt, σ')
       /\ files σ' !! "moderation_report.txt"%string
          = Some (report_header ++ "No profanity detected in the audio." ++ Str.nl)%string.
Proof.
  assert (Hl : heap (Ex.store_with []) !! 1%positive = Some []) by reflexivity.
  split; [exact Hl|].
  destruct (empty_report 1%positive "moderation_report.txt" (Ex.store_with []) Hl)
    as (σ' & Hrun & _ & Hfile & _).
  exists σ'. split; [exact Hrun | exact Hfile].
Defined.

(** C6: the claim fails at the start time 2.01 s, whose product with 1000
    lies just below 2010. *)
Lemma to_ms_not_rounded :
  let i := {| word := "damn"; start_time := PyFloat.decimal 201 2;
              end_time := PyFloat.decimal 25 1; censored_text := "****" |} in
  interval_ms i 2009 2500
  /\ Design.to_ms (start_time i) = Ok 2010
  /\ ~ (forall i start_ms end_ms,
          interval_ms i start_ms end_ms ->
          Design.to_ms (start_time i) = Ok start_ms
          /\ Design.to_ms (end_time i) = Ok end_ms).
Proof.
  cbv zeta. unfold interval_ms.
  split_and!; [vm_compute; reflexivity .. |].
  intros Hclaim.
  destruct (Hclaim {| word := "damn"; start_time := PyFloat.decimal 201 2;
                      end_time := PyFloat.decimal 25 1; censored_text := "****" |}
              2009 2500) as [Hs _].
  - split; vm_compute; reflexivity.
  - vm_compute in Hs. discriminate.
Qed.

(** C6 as amended, at that input. *)
Lemma to_ms_truncates_witness :
  let i := {| word := "damn"; start_time := PyFloat.decimal 201 2;
              end_time := PyFloat.decimal 25 1; censored_text := "****" |} in
  interval_ms i 2009 2500
  /\ 2009 = PyFloat.trunc_Q (PyFloat.to_Q (start_time i * PyFloat.of_int 1000)%pyfloat).
Proof.
  cbv zeta.
  assert (Hi : interval_ms
                 {| word := "damn"; start_time := PyFloat.decimal 201 2;
                    end_time := PyFloat.decimal 25 1; censored_text := "****" |}
                 2009 2500) by (split; vm_compute; reflexivity).
  split; [exact Hi|].
  exact (proj1 (to_ms_truncates _ _ _ Hi)).
Defined.

(** C7, on the example transcription. *)
Lemma flagged_intervals_sorted_stable_witness :
  let segs := Main._transcribe_audio (Ex.listening_moderator (Ex.flat (-1000) 100))
                "input.mp3" in
  Forall (fun s => PyFloat.is_nan (seg_start_time s) = false) segs
  /\ exists l σ1 sorted,
       Main._detect_profanity segs Ex.empty_store = (Ok l, σ1)
       /\ heap (Main._replace_profanity (Ex.listening_moderator (Ex.flat (-1000) 100))
                  (Ex.ramp 0 1000) l σ1).2 !! l = Some sorted
       /\ sorted ≡ₚ flagged_of segs.
Proof.
  cbv zeta.
  assert (Hs : Forall (fun s => PyFloat.is_nan (seg_start_time s) = false)
                 (Main._transcribe_audio (Ex.listening_moderator (Ex.flat (-1000) 100))
                    "input.mp3"))
    by (vm_compute; repeat constructor).
  split; [exact Hs|].
  destruct (flagged_intervals_sorted_stable
              (Ex.listening_moderator (Ex.flat (-1000) 100)) (Ex.ramp 0 1000) _
              Ex.empty_store Hs)
    as (l & σ1 & sorted & Hrun & Hl & _ & _ & Hperm).
  exists l, σ1, sorted. split_and!; [exact Hrun | exact Hl | exact Hperm].
Defined.


(** C10, on the example transcription: the list that comes back is the
    scanner's object, now with "hell" (0.2 s) before "damn" (0.6 s). *)
Lemma process_audio_sorts_in_place_witness :
  let self := Ex.listening_moderator (Ex.flat (-1000) 100) in
  let from_file := fun _ : string => Ok (Ex.ramp 0 1000) in
  exists processed l σ',
    Main.process_audio self from_file "input.mp3" Ex.empty_store
    = (Ok (processed, l), σ')
    /\ word <$> flagged_of (Main._transcribe_audio self "input.mp3") = ["damn"; "hell"]
    /\ word <$> default [] (heap σ' !! l) = ["hell"; "damn"].
Proof.
  cbv zeta.
  assert (Hrun : exists processed l σ',
             Main.process_audio (Ex.listening_moderator (Ex.flat (-1000) 100))
               (fun _ : string => Ok (Ex.ramp 0 1000)) "input.mp3" Ex.empty_store
             = (Ok (processed, l), σ'))
    by (eexists _, _, _; vm_compute; reflexivity).
  destruct Hrun as (processed & l & σ' & Hrun).
  exists processed, l, σ'. split; [exact Hrun|].
  destruct (process_audio_sorts_in_place _ _ _ _ _ _ _ Hrun) as (_ & _ & Hheap & _).
  split; [vm_compute; reflexivity|].
  rewrite Hheap, lookup_insert_eq. vm_compute. reflexivity.
Defined.

End Concrete.

Section ConcreteSplices.
#[local] Existing Instance mono16_1k.






End ConcreteSplices.

Section ConcreteTraced.
#[local] Existing Instance traced16.


End ConcreteTraced.

(** * Further properties of the code *)

(** ** Strings *)

Section StrFacts.
Local Open Scope string_scope.

Lemma str_app_assoc (a b c : string) : (a ++ b) ++ c = a ++ b ++ c.
Proof.
  induction a as [|ch a IH]; [reflexivity|].
  change (String ch ((a ++ b) ++ c) = String ch (a ++ b ++ c)). by rewrite IH.
Qed.












End StrFacts.

(** ** The transcript and the scanner *)

Section TranscriptFacts.
Context {frame : Type} `{SampleFormat frame} `{Lexicon}.
Implicit Types self : Main.AudioContentModerator (frame := frame).






Lemma flagged_of_none segs :
  Forall (fun s => contains_profanity (seg_word s) = false) segs -> flagged_of segs = [].
Proof.
  induction 1 as [|segment segs Hs _ IH]; [done|].
  by rewrite flagged_of_cons, Hs, IH.
Qed.

(** X3. When the lexicon flags no word of the transcript (an empty
    transcript included), [process_audio] returns the loaded audio itself,
    together with a new, empty list. *)
Theorem process_audio_without_profanity self from_file path audio σ :
  from_file path = Ok audio ->
  Forall (fun s => contains_profanity (seg_word s) = false)
    (Main._transcribe_audio self path) ->
  exists l,
    heap σ !! l = None
    /\ Main.process_audio self from_file path σ
       = (Ok (audio, l), {| heap := <[l := []]> (heap σ); files := files σ |}).
Proof.
  intros Hfile Hclean. exists (fresh (dom (heap σ))). split; [apply fresh_object|].
  unfold Main.process_audio, mbind, Main.M_bind, Main.lift. rewrite Hfile.
  rewrite detect_profanity_run, replace_profanity_run.
  rewrite (flagged_of_none _ Hclean). cbn [heap files].
  rewrite lookup_insert_eq, alter_insert_eq. reflexivity.
Qed.

End TranscriptFacts.

(** ** What [_replace_profanity] does to the store, and when it raises *)

Section StoreEffects.
Context {frame : Type} `{SampleFormat frame}.
Implicit Types self : Main.AudioContentModerator (frame := frame).
Implicit Types audio : Pydub.AudioSegment frame.

(** X4. Whether it returns or raises, [_replace_profanity] touches nothing
    but the list object it is given: the files and every other object stay
    as they were, and the list keeps its elements (reordered). *)
Theorem replace_profanity_frame self audio l σ :
  let σ' := (Main._replace_profanity self audio l σ).2 in
  files σ' = files σ
  /\ (forall l', l' ≠ l -> heap σ' !! l' = heap σ !! l')
  /\ dom (heap σ') = dom (heap σ)
  /\ (forall xs, heap σ !! l = Some xs ->
                 exists ys, heap σ' !! l = Some ys /\ ys ≡ₚ xs).
Proof.
  rewrite replace_profanity_run. cbn [snd heap files]. split_and!.
  - reflexivity.
  - intros l' Hl'. by rewrite lookup_alter_ne.
  - apply dom_alter_L.
  - intros xs Hxs. rewrite lookup_alter_eq, Hxs. eexists. split; [reflexivity|].
    apply sort_perm.
Qed.

Lemma leb_ltb_false x y : PyFloat.leb x y = true -> PyFloat.ltb y x = false.
Proof.
  unfold PyFloat.leb, PyFloat.ltb, SFleb, SFltb. intros Hle.
  assert (PyFloat.is_nan x = false /\ PyFloat.is_nan y = false) as [Hx Hy]
    by (by destruct x, y).
  rewrite (compare_rank x y) in Hle by done. rewrite (compare_rank y x) by done.
  rewrite lex_compare_antisym.
  by destruct (PyFloat.lex_compare (PyFloat.rank x) (PyFloat.rank y)).
Qed.

Lemma sort_ascending_id {A} (key : A -> PyFloat.float) (l : list A) :
  ascending key l -> Py.sort key PyFloat.ltb l = l.
Proof.
  induction 1 as [|x l Hs IH Hhd]; [done|].
  simpl. rewrite IH. destruct Hhd as [|y l Hxy]; [done|].
  simpl. by rewrite (leb_ltb_false _ _ Hxy).
Qed.

(** X5. A list that is already ascending by start time, as a transcription
    in time order gives it, is left exactly as it was: the store after
    [_replace_profanity] is the store before. *)
Theorem replace_profanity_keeps_ascending_list self audio l xs σ :
  heap σ !! l = Some xs -> ascending start_time xs ->
  (Main._replace_profanity self audio l σ).2 = σ.
Proof.
  intros Hl Hasc. rewrite replace_profanity_run. cbn [snd].
  rewrite alter_id; [by destruct σ|].
  intros ys Hys. rewrite Hl in Hys. injection Hys as <-.
  by apply sort_ascending_id.
Qed.





End StoreEffects.

(** ** Durations after splicing *)

Section Durations.
Context {frame : Type} `{SampleFormat frame}.
Implicit Types self : Main.AudioContentModerator (frame := frame).
Implicit Types audio : Pydub.AudioSegment frame.




End Durations.

(** ** The report *)

Section ReportFacts.
Context {frame : Type} `{SampleFormat frame} `{Lexicon}.
Implicit Types self : Main.AudioContentModerator (frame := frame).
Local Open Scope string_scope.

Lemma write_run path s old hp fs :
  Main.write path s {| heap := hp; files := <[path := old]> fs |}
  = (Ok tt, {| heap := hp; files := <[path := old ++ s]> fs |}).
Proof. unfold Main.write. cbn [heap files]. by rewrite alter_insert_eq. Qed.

Lemma report_instances_run path idx instances old hp fs :
  Main.report_instances path idx instances {| heap := hp; files := <[path := old]> fs |}
  = (Ok tt, {| heap := hp; files := <[path := old ++ report_blocks idx instances]> fs |}).
Proof.
  revert idx old. induction instances as [|i rest IH]; intros idx old.
  - cbn [Main.report_instances report_blocks]. unfold mret, Main.M_ret.
    replace (old ++ "") with old; [done|].
    clear. induction old as [|c old IH]; [done|].
    change (String c old = String c (old ++ "")). by rewrite <- IH.
  - cbn [Main.report_instances report_blocks].
    unfold Main.report_instance, mbind, Main.M_bind.
    rewrite !write_run, IH. unfold report_block.
    by rewrite !str_app_assoc.
Qed.

(** X11. [save_report] never raises.  It leaves in the file the header,
    then either the line that no profanity was detected or the count line
    followed by one five-line block per instance, numbered from 1 in list
    order.  Whatever the file held before is replaced; the list objects and
    the other files are untouched. *)
Theorem save_report_writes_report_text l output_path σ :
  Main.save_report l output_path σ
  = (Ok tt,
     {| heap := heap σ;
        files := <[output_path := report_text (default [] (heap σ !! l))]> (files σ) |}).
Proof.
  unfold Main.save_report, mbind, Main.M_bind, Main.open_w, Main.elements_of.
  cbn [heap files]. rewrite !write_run. cbn [heap].
  destruct (default [] (heap σ !! l)) as [|i rest] eqn:Hl.
  - rewrite write_run. unfold report_text, report_header. cbn [append].
    by rewrite !str_app_assoc.
  - rewrite write_run, report_instances_run. unfold report_text, report_header.
    cbn [append]. by rewrite !str_app_assoc.
Qed.


(** X12. When [main] returns, the report file lists the flagged words in
    ascending order of start time, not in transcription order: it is the
    report of the scanner's list after [_replace_profanity] has sorted it in
    place. *)
Theorem main_report_in_time_order load_model from_file export model clip σ σ' :
  load_model "base" = Ok model -> from_file "beep.mp3" = Ok clip ->
  Main.main load_model from_file export σ = (Ok tt, σ') ->
  let moderator := {| Main.model := model; Main.replacement_sound := clip;
                      Main.censorship_threshold := PyFloat.decimal 8 1 |} in
  files σ' !! "moderation_report.txt"
  = Some (report_text
            (Py.sort start_time PyFloat.ltb
               (flagged_of (Main._transcribe_audio moderator "input.mp3")))).
Proof.
  intros Hmodel Hclip. unfold Main.main, Main.__init__.
  rewrite Hmodel, bind_Ok, Hclip, bind_Ok.
  unfold mbind at 1, Main.M_bind at 1, Main.lift at 1, mret, res_ret.
  unfold mbind at 1, Main.M_bind at 1.
  unfold Main.process_audio, mbind at 1 2 3, Main.M_bind at 1 2 3, Main.lift at 1.
  destruct (from_file "input.mp3") as [audio|]; [|discriminate].
  rewrite detect_profanity_run, replace_profanity_run.
  cbn [heap files]. rewrite lookup_insert_eq. cbn [default].
  destruct (Main.replace_loop _ _ _) as [processed|]; [|discriminate].
  unfold mret, Main.M_ret. unfold mbind, Main.M_bind, Main.lift.
  destruct (export processed "output.mp3" "mp3") as [[]|]; [|discriminate].
  rewrite save_report_writes_report_text. intros [= <-]. cbn [heap files].
  rewrite lookup_insert_eq, alter_insert_eq, lookup_insert_eq. reflexivity.
Qed.


End ReportFacts.

(** ** The further properties on concrete inputs *)

Section ConcreteExtras.
#[local] Existing Instance mono16_1k.
#[local] Existing Instance Ex.lexicon.

(** X3, on a transcription without words. *)
Lemma process_audio_without_profanity_witness :
  let self := Ex.moderator (Ex.flat (-1000) 100) in
  let from_file := fun _ : string => Ok (Ex.ramp 0 1000) in
  from_file "input.mp3" = Ok (Ex.ramp 0 1000)
  /\ Forall (fun s => contains_profanity (seg_word s) = false)
       (Main._transcribe_audio self "input.mp3")
  /\ exists l, (Main.process_audio self from_file "input.mp3" Ex.empty_store).1
               = Ok (Ex.ramp 0 1000, l).
Proof.
  cbv zeta.
  assert (Hclean : Forall (fun s => contains_profanity (seg_word s) = false)
                     (Main._transcribe_audio (Ex.moderator (Ex.flat (-1000) 100)) "input.mp3"))
    by constructor.
  split_and!; [reflexivity | exact Hclean |].
  destruct (process_audio_without_profanity (Ex.moderator (Ex.flat (-1000) 100))
              (fun _ : string => Ok (Ex.ramp 0 1000)) "input.mp3" (Ex.ramp 0 1000)
              Ex.empty_store eq_refl Hclean) as (l & _ & Hrun).
  exists l. by rewrite Hrun.
Defined.

(** X5, on two intervals in time order. *)
Lemma replace_profanity_keeps_ascending_list_witness :
  let xs := [Ex.flagged 200 300; Ex.flagged 600 700] in
  heap (Ex.store_with xs) !! 1%positive = Some xs
  /\ ascending start_time xs
  /\ (Main._replace_profanity (Ex.moderator (Ex.flat (-1000) 100)) (Ex.ramp 0 1000)
        1%positive (Ex.store_with xs)).2 = Ex.store_with xs.
Proof.
  cbv zeta.
  assert (Hl : heap (Ex.store_with [Ex.flagged 200 300; Ex.flagged 600 700]) !! 1%positive
               = Some [Ex.flagged 200 300; Ex.flagged 600 700]) by reflexivity.
  assert (Hasc : ascending start_time [Ex.flagged 200 300; Ex.flagged 600 700]).
  { repeat constructor. }
  split_and!; [exact Hl | exact Hasc |].
  exact (replace_profanity_keeps_ascending_list (Ex.moderator (Ex.flat (-1000) 100))
           (Ex.ramp 0 1000) 1%positive _ _ Hl Hasc).
Defined.






(** X12, on the example transcription: "hell" (0.2 s) is reported before
    "damn" (0.6 s). *)
Lemma main_report_in_time_order_witness :
  let load_model := fun _ : string => Ok Ex.whisper in
  let from_file := fun _ : string => Ok (Ex.ramp 0 1000) in
  let export := fun (_ : Pydub.AudioSegment Z) (_ _ : string) => Ok tt in
  exists σ',
    Main.main load_model from_file export Ex.empty_store = (Ok tt, σ')
    /\ files σ' !! "moderation_report.txt"%string
       = Some (report_text
                 [ {| word := "hell"; start_time := PyFloat.decimal 200 3;
                      end_time := PyFloat.decimal 300 3; censored_text := "****" |};
                   {| word := "damn"; start_time := PyFloat.decimal 600 3;
                      end_time := PyFloat.decimal 700 3; censored_text := "****" |} ]).
Proof.
  cbv zeta.
  assert (Hrun : exists σ',
             Main.main (fun _ : string => Ok Ex.whisper)
               (fun _ : string => Ok (Ex.ramp 0 1000))
               (fun (_ : Pydub.AudioSegment Z) (_ _ : string) => Ok tt) Ex.empty_store
             = (Ok tt, σ'))
    by (eexists; vm_compute; reflexivity).
  destruct Hrun as (σ' & Hrun). exists σ'. split; [exact Hrun|].
  rewrite (main_report_in_time_order _ _ _ Ex.whisper (Ex.ramp 0 1000) _ _
             eq_refl eq_refl Hrun).
  vm_compute. reflexivity.
Defined.


End ConcreteExtras.
